(** * gqlopencensus: span attributes and operation names

    A shallow embedding of [gqlopencensus/options.go]: the tracer's
    configuration (two ordered lists of attribute producers and a flag), the
    option functions that build it, the two attribute composers and the
    operation-name resolver.

    Conventions of the embedding.
    - A Go [string] is a [string]; a [[]byte] is a [list byte], the nil slice
      being the empty list (the code only ever converts it to a string).
    - A [map[string]interface{}] is an [option (gmap string Any)]: [None] is
      the nil map, and [Any] stands for the values an [interface{}] holds.
    - A pointer the code tests against nil ([ctx.Operation]) is an [option];
      the contexts the engine hands to the tracer are records: the code reads
      through them without a nil test.
    - An [Option] mutates the [config] it points to; here it maps the
      configuration before the call to the configuration after it.
    - A producer is a function of its context. Where a property depends on
      what a closure may do to the variables it captured, a producer is a
      step on the memory [Store] of the program, and the composers thread
      that memory through the calls. *)

From Stdlib Require Import String List Bool ZArith.
From Stdlib.Strings Require Import Byte.
From stdpp Require Import base strings gmap list.

Import ListNotations.
Local Open Scope string_scope.
Local Open Scope list_scope.

(** ** go.opencensus.io/trace *)

Module trace.

(** The value of a span attribute: the package builds it with
    [StringAttribute], [BoolAttribute], [Int64Attribute] and
    [Float64Attribute]; a float64 is kept as its 64-bit pattern. *)
Inductive AttributeValue : Type :=
| StringValue (s : string)
| BoolValue (b : bool)
| Int64Value (n : Z)
| Float64Value (bits : Z).

Record Attribute : Type := mkAttribute {
  key : string;
  value : AttributeValue
}.

Definition StringAttribute (k v : string) : Attribute :=
  {| key := k; value := StringValue v |}.

End trace.

(** ** github.com/vektah/gqlparser/v2/ast *)

Module ast.

(** [type Operation string], with its three constants. *)
Definition Operation : Type := string.
Definition Query : Operation := "query".
Definition Mutation : Operation := "mutation".
Definition Subscription : Operation := "subscription".

Module OperationDefinition.
Record t : Type := mk {
  Operation : ast.Operation;
  Name : string
}.
End OperationDefinition.

Module Field.
Record t : Type := mk {
  Alias : string;
  Name : string
}.
End Field.

End ast.

(** ** encoding/json *)

Definition error : Type := string.

Module json.

(** A channel: a value [Marshal] has no encoding for. *)
Inductive Chan : Type := chan.

(** [json.Marshal] at [map[string]chan int]: the nil map encodes as [null],
    the empty map as [{}], and any entry makes it fail with an
    [UnsupportedTypeError], for which it returns [nil, err]. *)
Definition Marshal_chans (v : option (gmap string Chan))
    : list Byte.byte * option error :=
  match v with
  | None => (list_byte_of_string "null", None)
  | Some m =>
      if decide (m = ∅) then (list_byte_of_string "{}", None)
      else ([], Some "json: unsupported type: chan int")
  end.

End json.

Section Contexts.

(** The dynamic values carried by arguments and variables. *)
Variable Any : Type.

(** ** github.com/99designs/gqlgen/graphql *)

Record OperationContext : Type := mkOperationContext {
  RawQuery : string;
  Variables : option (gmap string Any);
  OperationName : string;
  Operation : option ast.OperationDefinition.t
}.

(** [graphql.CollectedField] embeds the parsed [*ast.Field], so that
    [fc.Field.Name] is the name of that node. *)
Record FieldContext : Type := mkFieldContext {
  Field : ast.Field.t;
  Args : option (gmap string Any)
}.

(** ** The operation-name resolver *)

(** [operationName] has a named result [opName], which starts as the empty
    string and goes through three guarded assignments. *)
Definition operationName (ctx : OperationContext) : string :=
  let opName := "" in
  let opName :=
    match Operation ctx with
    | Some op => ast.OperationDefinition.Name op
    | None => opName
    end in
  let opName :=
    match String.eqb opName "", Operation ctx with
    | true, Some op => ast.OperationDefinition.Operation op
    | _, _ => opName
    end in
  let opName :=
    if String.eqb opName "" then OperationName ctx else opName in
  opName.

(** ** Attribute producers and the configuration *)

Definition FieldAttributer : Type := FieldContext -> list trace.Attribute.

Definition FieldAttribute (key value : string) : FieldAttributer :=
  fun _ => [trace.StringAttribute key value].

Definition OperationAttributer : Type :=
  OperationContext -> list trace.Attribute.

Definition OperationAttribute (key value : string) : OperationAttributer :=
  fun _ => [trace.StringAttribute key value].

Record config : Type := mkConfig {
  fieldAttributers : list FieldAttributer;
  operationAttributers : list OperationAttributer;
  onlyMethods : bool
}.

(** ** The attribute composers *)

(** The variables a composer works on: its receiver [c] (the method has a
    value receiver, so this is the callee's copy) and the local slice
    [attrs]. *)
Record frame : Type := mkFrame {
  recv : config;
  attrs : list trace.Attribute
}.

(** One turn of [for _, apply := range ... { attrs = append(attrs, apply(ctx)...) }]. *)
Definition append_attrs {Ctx : Type} (ctx : Ctx) (fr : frame)
    (apply : Ctx -> list trace.Attribute) : frame :=
  {| recv := recv fr; attrs := attrs fr ++ apply ctx |}.

(** The frame in which [c.fieldAttributes(ctx)] returns; [attrs] starts as
    [make([]trace.Attribute, 0, 10)], an empty slice. *)
Definition fieldAttributes_frame (c : config) (ctx : FieldContext) : frame :=
  fold_left (append_attrs ctx) (fieldAttributers c) {| recv := c; attrs := [] |}.

Definition fieldAttributes (c : config) (ctx : FieldContext)
    : list trace.Attribute :=
  attrs (fieldAttributes_frame c ctx).

Definition operationAttributes_frame (c : config) (ctx : OperationContext)
    : frame :=
  fold_left (append_attrs ctx) (operationAttributers c)
    {| recv := c; attrs := [] |}.

Definition operationAttributes (c : config) (ctx : OperationContext)
    : list trace.Attribute :=
  attrs (operationAttributes_frame c ctx).

(** ** The default tracer *)

(** Of [Tracer] the file at hand shows one field, [config]. *)
Record Tracer : Type := mkTracer {
  Tracer_config : config
}.

Definition defaultFieldAttributer : FieldAttributer :=
  fun fc =>
    [ trace.StringAttribute "server" "gqlgen";
      trace.StringAttribute "field" (ast.Field.Name (Field fc)) ].

Definition defaultOperationAttributer : OperationAttributer :=
  fun oc =>
    [ trace.StringAttribute "server" "gqlgen";
      trace.StringAttribute "operation" (operationName oc) ].

Definition defaultTracer : Tracer :=
  {| Tracer_config :=
       {| fieldAttributers := [defaultFieldAttributer];
          operationAttributers := [defaultOperationAttributer];
          onlyMethods := true |} |}.

(** ** Options *)

Definition Option : Type := config -> config.

Definition WithFieldAttributes (attributers : list FieldAttributer) : Option :=
  fun c =>
    {| fieldAttributers := fieldAttributers c ++ attributers;
       operationAttributers := operationAttributers c;
       onlyMethods := onlyMethods c |}.

Definition WithOperationAttributes (attributers : list OperationAttributer)
    : Option :=
  fun c =>
    {| fieldAttributers := fieldAttributers c;
       operationAttributers := operationAttributers c ++ attributers;
       onlyMethods := onlyMethods c |}.

Definition dataDogAttributer : OperationAttributer :=
  fun oc => [trace.StringAttribute "resource.name" (operationName oc)].

Definition WithDataDog : Option :=
  fun c =>
    {| fieldAttributers := fieldAttributers c;
       operationAttributers := operationAttributers c ++ [dataDogAttributer];
       onlyMethods := onlyMethods c |}.

Definition rawQueryAttributer : OperationAttributer :=
  fun oc => [trace.StringAttribute "query" (RawQuery oc)].

Definition WithRawQuery : Option :=
  fun c =>
    {| fieldAttributers := fieldAttributers c;
       operationAttributers := operationAttributers c ++ [rawQueryAttributer];
       onlyMethods := onlyMethods c |}.

(** [json.Marshal], at the one type it is called with here. It returns the
    encoding and an error; the error is [None] for Go's nil. *)
Variable json_Marshal : option (gmap string Any) -> list Byte.byte * option error.

(** What [Marshal] does when encoding fails: [return nil, err]. *)
Definition nil_on_error : Prop :=
  forall v b e, json_Marshal v = (b, Some e) -> b = [].

(** [variables, _ := json.Marshal(oc.Variables)]: the error is dropped, and
    [string(variables)] converts what came back. *)
Definition variablesAttributer : OperationAttributer :=
  fun oc =>
    let '(variables, _) := json_Marshal (Variables oc) in
    [trace.StringAttribute "variables" (string_of_list_byte variables)].

Definition WithVariables : Option :=
  fun c =>
    {| fieldAttributers := fieldAttributers c;
       operationAttributers := operationAttributers c ++ [variablesAttributer];
       onlyMethods := onlyMethods c |}.

Definition argsAttributer : FieldAttributer :=
  fun fc =>
    let '(args, _) := json_Marshal (Args fc) in
    [trace.StringAttribute "args" (string_of_list_byte args)].

Definition WithArgs : Option :=
  fun c =>
    {| fieldAttributers := fieldAttributers c ++ [argsAttributer];
       operationAttributers := operationAttributers c;
       onlyMethods := onlyMethods c |}.

Definition OnlyMethods (enabled : bool) : Option :=
  fun c =>
    {| fieldAttributers := fieldAttributers c;
       operationAttributers := operationAttributers c;
       onlyMethods := enabled |}.

(** ** Building a configuration *)

(** Options applied one after the other, each to the configuration the
    previous one left. *)
Definition applyOptions (opts : list Option) (c : config) : config :=
  fold_left (fun c apply => apply c) opts c.

(** Modelled from the spec: the constructor of the adapter, [New], is in the
    tracer's own file, which is not among the sources; by the spec the
    configuration is "a default plus any supplied options", the options
    being "applied strictly in the order supplied by the caller". *)
Definition New (opts : list Option) : Tracer :=
  {| Tracer_config := applyOptions opts (Tracer_config defaultTracer) |}.

(** [config] is unexported, so the options a caller can pass are the calls
    of the package's seven option functions. *)
Inductive OptionCall : Type :=
| CallWithFieldAttributes (attributers : list FieldAttributer)
| CallWithOperationAttributes (attributers : list OperationAttributer)
| CallWithDataDog
| CallWithRawQuery
| CallWithVariables
| CallWithArgs
| CallOnlyMethods (enabled : bool).

Definition callOption (k : OptionCall) : Option :=
  match k with
  | CallWithFieldAttributes attributers => WithFieldAttributes attributers
  | CallWithOperationAttributes attributers =>
      WithOperationAttributes attributers
  | CallWithDataDog => WithDataDog
  | CallWithRawQuery => WithRawQuery
  | CallWithVariables => WithVariables
  | CallWithArgs => WithArgs
  | CallOnlyMethods enabled => OnlyMethods enabled
  end.

(** The argument of a call of [OnlyMethods]. *)
Definition toggled (k : OptionCall) : option bool :=
  match k with
  | CallOnlyMethods enabled => Some enabled
  | _ => None
  end.

(** The argument of the last call of [OnlyMethods] in a sequence of calls. *)
Fixpoint lastToggle (calls : list OptionCall) : option bool :=
  match calls with
  | [] => None
  | k :: rest =>
      match lastToggle rest with
      | Some enabled => Some enabled
      | None => toggled k
      end
  end.

(** ** The resolver as the spec words it *)

(** The first non-empty candidate, the empty string when there is none. *)
Fixpoint first_non_empty (candidates : list string) : string :=
  match candidates with
  | [] => ""
  | s :: rest => if String.eqb s "" then first_non_empty rest else s
  end.

(** The fallback chain of the spec: the explicit name and the kind of the
    parsed node when there is one, then the raw operation name. *)
Definition operationName_chain (ctx : OperationContext) : string :=
  first_non_empty
    (match Operation ctx with
     | Some op =>
         [ ast.OperationDefinition.Name op;
           ast.OperationDefinition.Operation op ]
     | None => []
     end ++ [OperationName ctx]).

(** ** Vocabulary of the properties *)

(** The text of what [json.Marshal] returned: empty when it failed. *)
Definition encoded_or_empty (r : list Byte.byte * option error) : string :=
  match r.2 with
  | Some _ => ""
  | None => string_of_list_byte r.1
  end.

(** An option that appends [added] to the field producers and touches
    nothing else. *)
Definition only_appends_fields (o : Option) (added : list FieldAttributer)
    : Prop :=
  forall c,
    fieldAttributers (o c) = fieldAttributers c ++ added
    /\ operationAttributers (o c) = operationAttributers c
    /\ onlyMethods (o c) = onlyMethods c.

(** An option that appends [added] to the operation producers and touches
    nothing else. *)
Definition only_appends_operations (o : Option)
    (added : list OperationAttributer) : Prop :=
  forall c,
    fieldAttributers (o c) = fieldAttributers c
    /\ operationAttributers (o c) = operationAttributers c ++ added
    /\ onlyMethods (o c) = onlyMethods c.

(** An option that sets the flag to [enabled] and touches nothing else. *)
Definition only_sets_flag (o : Option) (enabled : bool) : Prop :=
  forall c,
    fieldAttributers (o c) = fieldAttributers c
    /\ operationAttributers (o c) = operationAttributers c
    /\ onlyMethods (o c) = enabled.

(** ** What a sequence of option calls registers *)

(** The field producers a call appends. *)
Definition addedFieldAttributers (k : OptionCall) : list FieldAttributer :=
  match k with
  | CallWithFieldAttributes attributers => attributers
  | CallWithArgs => [argsAttributer]
  | _ => []
  end.

(** The operation producers a call appends. *)
Definition addedOperationAttributers (k : OptionCall)
    : list OperationAttributer :=
  match k with
  | CallWithOperationAttributes attributers => attributers
  | CallWithDataDog => [dataDogAttributer]
  | CallWithRawQuery => [rawQueryAttributer]
  | CallWithVariables => [variablesAttributer]
  | _ => []
  end.

(** The field of [config] a call assigns. *)
Inductive Component : Type :=
| FieldProducers
| OperationProducers
| Flag.

Definition component (k : OptionCall) : Component :=
  match k with
  | CallWithFieldAttributes _ | CallWithArgs => FieldProducers
  | CallWithOperationAttributes _ | CallWithDataDog | CallWithRawQuery
  | CallWithVariables => OperationProducers
  | CallOnlyMethods _ => Flag
  end.

Definition Component_eqb (a b : Component) : bool :=
  match a, b with
  | FieldProducers, FieldProducers => true
  | OperationProducers, OperationProducers => true
  | Flag, Flag => true
  | _, _ => false
  end.

Definition isFieldCall (k : OptionCall) : bool :=
  Component_eqb (component k) FieldProducers.

Definition isOperationCall (k : OptionCall) : bool :=
  Component_eqb (component k) OperationProducers.

(** The calls that register no producer of the caller's. *)
Definition isBuiltinCall (k : OptionCall) : bool :=
  match k with
  | CallWithFieldAttributes _ | CallWithOperationAttributes _ => false
  | _ => true
  end.

(** A string attribute whose key is one of [keys]. *)
Definition stringAttributeIn (keys : list string) (a : trace.Attribute)
    : bool :=
  match trace.value a with
  | trace.StringValue _ => existsb (String.eqb (trace.key a)) keys
  | _ => false
  end.

(** The constant producers for a list of key/value pairs. *)
Definition FieldAttribute_pairs (kvs : list (string * string))
    : list FieldAttributer :=
  map (fun kv => FieldAttribute kv.1 kv.2) kvs.

Definition OperationAttribute_pairs (kvs : list (string * string))
    : list OperationAttributer :=
  map (fun kv => OperationAttribute kv.1 kv.2) kvs.

(** ** Producers with effects *)

(** A Go closure can read and write the variables it captured, so a call of
    a producer is, in general, a step on the memory of the program: from the
    context and the memory before the call to the attributes and the memory
    after it. [Store] stands for that memory. *)
Definition StatefulFieldAttributer (Store : Type) : Type :=
  FieldContext -> Store -> list trace.Attribute * Store.

Definition StatefulOperationAttributer (Store : Type) : Type :=
  OperationContext -> Store -> list trace.Attribute * Store.

(** [config] with such producers. *)
Record stateful_config (Store : Type) : Type := mkStatefulConfig {
  st_fieldAttributers : list (StatefulFieldAttributer Store);
  st_operationAttributers : list (StatefulOperationAttributer Store);
  st_onlyMethods : bool
}.

Arguments st_fieldAttributers {Store} _.
Arguments st_operationAttributers {Store} _.
Arguments st_onlyMethods {Store} _.







Definition WithOperationAttributes_st {Store : Type}
    (attributers : list (StatefulOperationAttributer Store))
    (c : stateful_config Store) : stateful_config Store :=
  {| st_fieldAttributers := st_fieldAttributers c;
     st_operationAttributers := st_operationAttributers c ++ attributers;
     st_onlyMethods := st_onlyMethods c |}.









(** * Properties *)

(** ** The composers' loop *)

Lemma append_attrs_attrs {Ctx : Type} (ctx : Ctx)
    (ps : list (Ctx -> list trace.Attribute)) (fr : frame) :
  attrs (fold_left (append_attrs ctx) ps fr)
  = attrs fr ++ concat (map (fun p => p ctx) ps).
Proof.
  revert fr. induction ps as [|p ps IH]; intros fr; simpl.
  - symmetry. apply app_nil_r.
  - rewrite IH. simpl. symmetry. apply app_assoc.
Qed.

Lemma fieldAttributes_concat (c : config) (ctx : FieldContext) :
  fieldAttributes c ctx = concat (map (fun p => p ctx) (fieldAttributers c)).
Proof.
  unfold fieldAttributes, fieldAttributes_frame.
  rewrite append_attrs_attrs. reflexivity.
Qed.

Lemma operationAttributes_concat (c : config) (ctx : OperationContext) :
  operationAttributes c ctx
  = concat (map (fun p => p ctx) (operationAttributers c)).
Proof.
  unfold operationAttributes, operationAttributes_frame.
  rewrite append_attrs_attrs. reflexivity.
Qed.

Lemma concat_map_snoc {Ctx : Type} (ctx : Ctx)
    (ps : list (Ctx -> list trace.Attribute)) (p : Ctx -> list trace.Attribute) :
  concat (map (fun q => q ctx) (ps ++ [p]))
  = concat (map (fun q => q ctx) ps) ++ p ctx.
Proof.
  rewrite map_app, concat_app. simpl. rewrite app_nil_r. reflexivity.
Qed.

(** ** Sequences of option calls *)

Lemma applyOptions_cons (o : Option) (opts : list Option) (c : config) :
  applyOptions (o :: opts) c = applyOptions opts (o c).
Proof. reflexivity. Qed.

Lemma onlyMethods_callOption (k : OptionCall) (c : config) :
  onlyMethods (callOption k c)
  = match toggled k with Some enabled => enabled | None => onlyMethods c end.
Proof. destruct k; reflexivity. Qed.

Lemma lastToggle_app (before after : list OptionCall) :
  lastToggle (before ++ after)
  = match lastToggle after with
    | Some enabled => Some enabled
    | None => lastToggle before
    end.
Proof.
  induction before as [|k before IH]; simpl.
  - destruct (lastToggle after); reflexivity.
  - rewrite IH. destruct (lastToggle after); reflexivity.
Qed.

(** ** The resolver *)

Lemma operationName_cases (ctx : OperationContext) :
  operationName ctx
  = match Operation ctx with
    | Some op =>
        if String.eqb (ast.OperationDefinition.Name op) ""
        then if String.eqb (ast.OperationDefinition.Operation op) ""
             then OperationName ctx
             else ast.OperationDefinition.Operation op
        else ast.OperationDefinition.Name op
    | None => OperationName ctx
    end.
Proof.
  unfold operationName.
  destruct (Operation ctx) as [[kind name]|]; simpl.
  - destruct (String.eqb name "") eqn:Hname; simpl.
    + reflexivity.
    + rewrite Hname. reflexivity.
  - reflexivity.
Qed.

(** C1: the resolver returns the first non-empty of the parsed node's
    explicit name, the parsed node's kind and the raw operation name (the
    first two only when there is a parsed node), and the empty string when
    all are empty; so a node named "GetUser" gives "GetUser", a nameless
    mutation node gives "mutation", no node and raw name "Ping" gives
    "Ping", and no node and an empty raw name gives "". *)
Theorem operationName_fallback_chain :
  (forall ctx, operationName ctx = operationName_chain ctx)
  /\ (forall ctx,
        operationName ctx
        = match Operation ctx with
          | Some op =>
              if String.eqb (ast.OperationDefinition.Name op) ""
              then if String.eqb (ast.OperationDefinition.Operation op) ""
                   then OperationName ctx
                   else ast.OperationDefinition.Operation op
              else ast.OperationDefinition.Name op
          | None => OperationName ctx
          end)
  /\ (forall rq vars raw kind,
        operationName
          (mkOperationContext rq vars raw
             (Some (ast.OperationDefinition.mk kind "GetUser")))
        = "GetUser")
  /\ (forall rq vars raw,
        operationName
          (mkOperationContext rq vars raw
             (Some (ast.OperationDefinition.mk ast.Mutation "")))
        = "mutation")
  /\ (forall rq vars, operationName (mkOperationContext rq vars "Ping" None) = "Ping")
  /\ (forall rq vars, operationName (mkOperationContext rq vars "" None) = "").
Proof.
  split; [|split; [exact operationName_cases|repeat split; reflexivity]].
  intros ctx. rewrite operationName_cases. unfold operationName_chain.
  destruct (Operation ctx) as [[kind name]|]; simpl.
  - destruct (String.eqb name ""); [|reflexivity].
    destruct (String.eqb kind ""); [|reflexivity].
    destruct (String.eqb (OperationName ctx) "") eqn:Hraw; [|reflexivity].
    apply String.eqb_eq in Hraw. exact Hraw.
  - destruct (String.eqb (OperationName ctx) "") eqn:Hraw; [|reflexivity].
    apply String.eqb_eq in Hraw. exact Hraw.
Qed.

(** C9: with a parsed node whose name and kind are both empty the resolver
    returns the raw operation name; with a nameless node in general it
    returns the kind exactly when the kind is not empty. *)
Theorem operationName_empty_kind_skipped :
  (forall rq vars raw,
      operationName
        (mkOperationContext rq vars raw
           (Some (ast.OperationDefinition.mk "" "")))
      = raw)
  /\ (forall rq vars raw kind,
        operationName
          (mkOperationContext rq vars raw
             (Some (ast.OperationDefinition.mk kind "")))
        = if String.eqb kind "" then raw else kind).
Proof.
  split; intros; rewrite operationName_cases; reflexivity.
Qed.

(** C2: whatever producers a configuration holds, each composer returns the
    producers' outputs on the context, concatenated in the order of the
    list, nothing dropped, merged or moved. *)
Theorem composers_concatenate :
  (forall ps ops flag (ctx : FieldContext),
      fieldAttributes (mkConfig ps ops flag) ctx
      = concat (map (fun p => p ctx) ps))
  /\ (forall fps ps flag (ctx : OperationContext),
        operationAttributes (mkConfig fps ps flag) ctx
        = concat (map (fun p => p ctx) ps)).
Proof.
  split; intros.
  - apply fieldAttributes_concat.
  - apply operationAttributes_concat.
Qed.

(** C4: on every field context the default configuration gives two
    attributes, "server" = "gqlgen" and then "field" = the field's name. *)
Theorem default_fieldAttributes :
  forall fc : FieldContext,
    fieldAttributes (Tracer_config defaultTracer) fc
    = [ trace.StringAttribute "server" "gqlgen";
        trace.StringAttribute "field" (ast.Field.Name (Field fc)) ].
Proof. intros fc. reflexivity. Qed.

(** C5: on every operation context the default configuration gives two
    attributes, "server" = "gqlgen" and then "operation" = the name the
    resolver gives for that context. *)
Theorem default_operationAttributes :
  forall oc : OperationContext,
    operationAttributes (Tracer_config defaultTracer) oc
    = [ trace.StringAttribute "server" "gqlgen";
        trace.StringAttribute "operation" (operationName oc) ].
Proof. intros oc. reflexivity. Qed.

(** C3: the producers that [WithVariables] and [WithArgs] register return,
    on every context, one attribute, with key "variables" (resp. "args"),
    whose value is the encoding, and the empty string when [json.Marshal]
    failed; the composer of a configuration they were added to returns what
    it returned before followed by that attribute. The producers have no
    result other than the attributes. [json.Marshal] is taken as it is in
    Go: on failure it returns the nil slice. *)
Theorem serialization_producers_never_fail (Hnil : nil_on_error) :
  (forall oc,
      variablesAttributer oc
      = [trace.StringAttribute "variables"
           (encoded_or_empty (json_Marshal (Variables oc)))])
  /\ (forall fc,
        argsAttributer fc
        = [trace.StringAttribute "args"
             (encoded_or_empty (json_Marshal (Args fc)))])
  /\ (forall c oc,
        operationAttributes (WithVariables c) oc
        = operationAttributes c oc
          ++ [trace.StringAttribute "variables"
                (encoded_or_empty (json_Marshal (Variables oc)))])
  /\ (forall c fc,
        fieldAttributes (WithArgs c) fc
        = fieldAttributes c fc
          ++ [trace.StringAttribute "args"
                (encoded_or_empty (json_Marshal (Args fc)))]).
Proof.
  assert (Hv : forall oc,
             variablesAttributer oc
             = [trace.StringAttribute "variables"
                  (encoded_or_empty (json_Marshal (Variables oc)))]).
  { intros oc. unfold variablesAttributer, encoded_or_empty.
    destruct (json_Marshal (Variables oc)) as [b [e|]] eqn:Hm; simpl.
    - rewrite (Hnil _ _ _ Hm). reflexivity.
    - reflexivity. }
  assert (Ha : forall fc,
             argsAttributer fc
             = [trace.StringAttribute "args"
                  (encoded_or_empty (json_Marshal (Args fc)))]).
  { intros fc. unfold argsAttributer, encoded_or_empty.
    destruct (json_Marshal (Args fc)) as [b [e|]] eqn:Hm; simpl.
    - rewrite (Hnil _ _ _ Hm). reflexivity.
    - reflexivity. }
  repeat split; [exact Hv|exact Ha| |].
  - intros c oc. rewrite !operationAttributes_concat, <- Hv.
    exact (concat_map_snoc oc (operationAttributers c) variablesAttributer).
  - intros c fc. rewrite !fieldAttributes_concat, <- Ha.
    exact (concat_map_snoc fc (fieldAttributers c) argsAttributer).
Qed.

(** C6: after any sequence of option calls the flag is the argument of the
    last call of [OnlyMethods] in it (and the flag of the starting
    configuration when there is none): calls of [OnlyMethods] before the
    last one, however many, and calls of the other options, wherever they
    stand, do not count; one call sets the flag to its argument whatever it
    was. *)
Theorem onlyMethods_last_toggle_wins :
  (forall calls c,
      onlyMethods (applyOptions (map callOption calls) c)
      = match lastToggle calls with
        | Some enabled => enabled
        | None => onlyMethods c
        end)
  /\ (forall before enabled after,
        lastToggle (before ++ CallOnlyMethods enabled :: after)
        = match lastToggle after with
          | Some later => Some later
          | None => Some enabled
          end)
  /\ (forall enabled c, onlyMethods (OnlyMethods enabled c) = enabled).
Proof.
  split; [|split].
  - induction calls as [|k calls IH]; intros c; cbn [map lastToggle].
    + reflexivity.
    + rewrite applyOptions_cons, IH, onlyMethods_callOption.
      destruct (lastToggle calls); reflexivity.
  - intros before enabled after. rewrite lastToggle_app. simpl.
    destruct (lastToggle after); reflexivity.
  - reflexivity.
Qed.

(** C7: the adapter built from no option is the default tracer: its
    configuration has one field producer, one operation producer and the
    flag set, and its two composers return what the default's return. *)
Theorem New_without_options :
  New [] = defaultTracer
  /\ length (fieldAttributers (Tracer_config (New []))) = 1
  /\ length (operationAttributers (Tracer_config (New []))) = 1
  /\ onlyMethods (Tracer_config (New [])) = true
  /\ (forall fc,
        fieldAttributes (Tracer_config (New [])) fc
        = fieldAttributes (Tracer_config defaultTracer) fc)
  /\ (forall oc,
        operationAttributes (Tracer_config (New [])) oc
        = operationAttributes (Tracer_config defaultTracer) oc).
Proof. repeat split. Qed.

(** C8: [WithFieldAttributes] and [WithArgs] append to the field producers
    and leave the operation producers and the flag as they were;
    [WithOperationAttributes], [WithDataDog], [WithRawQuery] and
    [WithVariables] append to the operation producers and leave the field
    producers and the flag as they were; [OnlyMethods] sets the flag and
    leaves both lists as they were; and after any sequence of option calls
    the producers registered before are still there, in the same order, at
    the front of each list. *)
Theorem options_touch_one_component :
  (forall attributers,
      only_appends_fields (WithFieldAttributes attributers) attributers)
  /\ only_appends_fields WithArgs [argsAttributer]
  /\ (forall attributers,
        only_appends_operations (WithOperationAttributes attributers)
          attributers)
  /\ only_appends_operations WithDataDog [dataDogAttributer]
  /\ only_appends_operations WithRawQuery [rawQueryAttributer]
  /\ only_appends_operations WithVariables [variablesAttributer]
  /\ (forall enabled, only_sets_flag (OnlyMethods enabled) enabled)
  /\ (forall calls c,
        fieldAttributers c
          `prefix_of` fieldAttributers (applyOptions (map callOption calls) c)
        /\ operationAttributers c
          `prefix_of`
          operationAttributers (applyOptions (map callOption calls) c)).
Proof.
  repeat match goal with |- _ /\ _ => split end;
    try (intros; intros c; repeat split; reflexivity).
  induction calls as [|k calls IH]; intros c; cbn [map].
  - split; reflexivity.
  - rewrite applyOptions_cons.
    destruct (IH (callOption k c)) as [IHf IHo].
    split.
    + etransitivity; [|exact IHf].
      destruct k; simpl; try reflexivity; apply prefix_app_r; reflexivity.
    + etransitivity; [|exact IHo].
      destruct k; simpl; try reflexivity; apply prefix_app_r; reflexivity.
Qed.

(** ** Composers over producers with effects *)






(** * Further properties of the options and the composers *)

(** ** Shared lemmas *)

Lemma config_eta (c : config) :
  {| fieldAttributers := fieldAttributers c;
     operationAttributers := operationAttributers c;
     onlyMethods := onlyMethods c |} = c.
Proof. destruct c; reflexivity. Qed.

Lemma concat_map_app {Ctx : Type} (ctx : Ctx)
    (ps qs : list (Ctx -> list trace.Attribute)) :
  concat (map (fun p => p ctx) (ps ++ qs))
  = concat (map (fun p => p ctx) ps) ++ concat (map (fun p => p ctx) qs).
Proof. rewrite map_app. apply concat_app. Qed.

Lemma fieldAttributers_callOption (k : OptionCall) (c : config) :
  fieldAttributers (callOption k c)
  = fieldAttributers c ++ addedFieldAttributers k.
Proof. destruct k; simpl; rewrite ?app_nil_r; reflexivity. Qed.

Lemma operationAttributers_callOption (k : OptionCall) (c : config) :
  operationAttributers (callOption k c)
  = operationAttributers c ++ addedOperationAttributers k.
Proof. destruct k; simpl; rewrite ?app_nil_r; reflexivity. Qed.

Lemma fieldAttributers_applyOptions (calls : list OptionCall) (c : config) :
  fieldAttributers (applyOptions (map callOption calls) c)
  = fieldAttributers c ++ concat (map addedFieldAttributers calls).
Proof.
  revert c. induction calls as [|k calls IH]; intros c; cbn [map concat].
  - symmetry. apply app_nil_r.
  - rewrite applyOptions_cons, IH, fieldAttributers_callOption.
    symmetry. apply app_assoc.
Qed.

Lemma operationAttributers_applyOptions (calls : list OptionCall)
    (c : config) :
  operationAttributers (applyOptions (map callOption calls) c)
  = operationAttributers c ++ concat (map addedOperationAttributers calls).
Proof.
  revert c. induction calls as [|k calls IH]; intros c; cbn [map concat].
  - symmetry. apply app_nil_r.
  - rewrite applyOptions_cons, IH, operationAttributers_callOption.
    symmetry. apply app_assoc.
Qed.

Lemma fieldAttributes_applyOptions (calls : list OptionCall) (c : config)
    (fc : FieldContext) :
  fieldAttributes (applyOptions (map callOption calls) c) fc
  = fieldAttributes c fc
    ++ concat (map (fun p => p fc) (concat (map addedFieldAttributers calls))).
Proof.
  rewrite !fieldAttributes_concat, fieldAttributers_applyOptions.
  exact (concat_map_app fc (fieldAttributers c)
           (concat (map addedFieldAttributers calls))).
Qed.

Lemma operationAttributes_applyOptions (calls : list OptionCall) (c : config)
    (oc : OperationContext) :
  operationAttributes (applyOptions (map callOption calls) c) oc
  = operationAttributes c oc
    ++ concat (map (fun p => p oc)
                 (concat (map addedOperationAttributers calls))).
Proof.
  rewrite !operationAttributes_concat, operationAttributers_applyOptions.
  exact (concat_map_app oc (operationAttributers c)
           (concat (map addedOperationAttributers calls))).
Qed.

Lemma added_fields_filter (calls : list OptionCall) :
  concat (map addedFieldAttributers (List.filter isFieldCall calls))
  = concat (map addedFieldAttributers calls).
Proof.
  induction calls as [|k calls IH]; [reflexivity|].
  destruct k; cbn; rewrite ?IH; reflexivity.
Qed.

Lemma added_operations_filter (calls : list OptionCall) :
  concat (map addedOperationAttributers (List.filter isOperationCall calls))
  = concat (map addedOperationAttributers calls).
Proof.
  induction calls as [|k calls IH]; [reflexivity|].
  destruct k; cbn; rewrite ?IH; reflexivity.
Qed.

(** ** The resolver *)

(** X1: the resolver returns the empty string exactly when the raw operation
    name is empty and the parsed node, if there is one, has an empty name and
    an empty kind. *)
Theorem operationName_empty_iff :
  forall ctx,
    operationName ctx = ""
    <-> OperationName ctx = ""
        /\ match Operation ctx with
           | Some op =>
               ast.OperationDefinition.Name op = ""
               /\ ast.OperationDefinition.Operation op = ""
           | None => True
           end.
Proof.
  intros ctx. rewrite operationName_cases.
  destruct (Operation ctx) as [[kind name]|]; simpl.
  - destruct (String.eqb_spec name "") as [Hn|Hn];
      [destruct (String.eqb_spec kind "") as [Hk|Hk]|].
    + split; [intros H; auto|intros [H _]; exact H].
    + split; [intros H; contradiction|intros [_ [_ H]]; contradiction].
    + split; [intros H; contradiction|intros [_ [H _]]; contradiction].
  - split; [intros H; auto|intros [H _]; exact H].
Qed.

(** ** Configurations built by sequences of calls *)

(** X2: after any sequence of option calls the field composer returns what
    it returned before, followed by the outputs of the field producers the
    calls registered, call by call in the order of the calls. *)
Theorem fieldAttributes_after_calls :
  forall calls c (fc : FieldContext),
    fieldAttributes (applyOptions (map callOption calls) c) fc
    = fieldAttributes c fc
      ++ concat
           (map (fun k => concat (map (fun p => p fc) (addedFieldAttributers k)))
              calls).
Proof.
  intros calls c fc. rewrite fieldAttributes_applyOptions. f_equal.
  induction calls as [|k calls IH]; [reflexivity|].
  cbn [map concat]. rewrite <- IH.
  exact (concat_map_app fc (addedFieldAttributers k)
           (concat (map addedFieldAttributers calls))).
Qed.

(** X3: after any sequence of option calls the operation composer returns
    what it returned before, followed by the outputs of the operation
    producers the calls registered, call by call in the order of the
    calls. *)
Theorem operationAttributes_after_calls :
  forall calls c (oc : OperationContext),
    operationAttributes (applyOptions (map callOption calls) c) oc
    = operationAttributes c oc
      ++ concat
           (map (fun k =>
                   concat (map (fun p => p oc) (addedOperationAttributers k)))
              calls).
Proof.
  intros calls c oc. rewrite operationAttributes_applyOptions. f_equal.
  induction calls as [|k calls IH]; [reflexivity|].
  cbn [map concat]. rewrite <- IH.
  exact (concat_map_app oc (addedOperationAttributers k)
           (concat (map addedOperationAttributers calls))).
Qed.

(** X4: whatever options are applied to the default configuration, the two
    default attributes stay at the front of each composer's output: "server"
    and "field" for a field, "server" and "operation" for an operation. *)
Theorem default_attributes_stay_first :
  forall calls (fc : FieldContext) (oc : OperationContext),
    [ trace.StringAttribute "server" "gqlgen";
      trace.StringAttribute "field" (ast.Field.Name (Field fc)) ]
      `prefix_of`
      fieldAttributes
        (applyOptions (map callOption calls) (Tracer_config defaultTracer)) fc
    /\ [ trace.StringAttribute "server" "gqlgen";
         trace.StringAttribute "operation" (operationName oc) ]
         `prefix_of`
         operationAttributes
           (applyOptions (map callOption calls) (Tracer_config defaultTracer))
           oc.
Proof.
  intros calls fc oc. split.
  - rewrite fieldAttributes_applyOptions. eexists. reflexivity.
  - rewrite operationAttributes_applyOptions. eexists. reflexivity.
Qed.

(** X5: the field composer of a built configuration depends only on the
    calls of [WithFieldAttributes] and [WithArgs], the operation composer
    only on the calls of [WithOperationAttributes], [WithDataDog],
    [WithRawQuery] and [WithVariables]: dropping every other call from the
    sequence changes neither output. *)
Theorem composers_ignore_other_scopes :
  forall calls c (fc : FieldContext) (oc : OperationContext),
    fieldAttributes (applyOptions (map callOption calls) c) fc
    = fieldAttributes
        (applyOptions (map callOption (List.filter isFieldCall calls)) c) fc
    /\ operationAttributes (applyOptions (map callOption calls) c) oc
       = operationAttributes
           (applyOptions (map callOption (List.filter isOperationCall calls)) c) oc.
Proof.
  intros calls c fc oc. split.
  - rewrite !fieldAttributes_applyOptions, added_fields_filter. reflexivity.
  - rewrite !operationAttributes_applyOptions, added_operations_filter.
    reflexivity.
Qed.

(** ** Single options *)

Lemma fieldAttributes_callOption (k : OptionCall) (c : config)
    (fc : FieldContext) :
  fieldAttributes (callOption k c) fc
  = fieldAttributes c fc
    ++ concat (map (fun p => p fc) (addedFieldAttributers k)).
Proof.
  rewrite !fieldAttributes_concat, fieldAttributers_callOption.
  exact (concat_map_app fc (fieldAttributers c) (addedFieldAttributers k)).
Qed.

Lemma operationAttributes_callOption (k : OptionCall) (c : config)
    (oc : OperationContext) :
  operationAttributes (callOption k c) oc
  = operationAttributes c oc
    ++ concat (map (fun p => p oc) (addedOperationAttributers k)).
Proof.
  rewrite !operationAttributes_concat, operationAttributers_callOption.
  exact (concat_map_app oc (operationAttributers c)
           (addedOperationAttributers k)).
Qed.

Lemma FieldAttribute_pairs_output (kvs : list (string * string))
    (fc : FieldContext) :
  concat (map (fun p => p fc) (FieldAttribute_pairs kvs))
  = map (fun kv => trace.StringAttribute kv.1 kv.2) kvs.
Proof.
  induction kvs as [|kv kvs IH]; [reflexivity|].
  cbn. f_equal. exact IH.
Qed.

Lemma OperationAttribute_pairs_output (kvs : list (string * string))
    (oc : OperationContext) :
  concat (map (fun p => p oc) (OperationAttribute_pairs kvs))
  = map (fun kv => trace.StringAttribute kv.1 kv.2) kvs.
Proof.
  induction kvs as [|kv kvs IH]; [reflexivity|].
  cbn. f_equal. exact IH.
Qed.

(** X6: registering the constant producers [FieldAttribute k v] (resp.
    [OperationAttribute k v]) for a list of key/value pairs adds, on every
    context, exactly the string attributes of these pairs, in the order of
    the list, after what the configuration produced before. *)
Theorem constant_attributers_add_their_pairs :
  forall kvs c (fc : FieldContext) (oc : OperationContext),
    fieldAttributes (WithFieldAttributes (FieldAttribute_pairs kvs) c) fc
    = fieldAttributes c fc
      ++ map (fun kv => trace.StringAttribute kv.1 kv.2) kvs
    /\ operationAttributes
         (WithOperationAttributes (OperationAttribute_pairs kvs) c) oc
       = operationAttributes c oc
         ++ map (fun kv => trace.StringAttribute kv.1 kv.2) kvs.
Proof.
  intros kvs c fc oc. split.
  - rewrite <- FieldAttribute_pairs_output with (fc := fc).
    exact (fieldAttributes_callOption
             (CallWithFieldAttributes (FieldAttribute_pairs kvs)) c fc).
  - rewrite <- OperationAttribute_pairs_output with (oc := oc).
    exact (operationAttributes_callOption
             (CallWithOperationAttributes (OperationAttribute_pairs kvs)) c oc).
Qed.

(** X7: [WithDataDog] adds one attribute at the end of the operation
    attributes, "resource.name", whose value is the resolved operation name;
    [WithRawQuery] adds one, "query", whose value is the raw query text;
    neither changes the field attributes. On the default configuration
    "resource.name" carries the same value as "operation". *)
Theorem datadog_and_rawquery_attributes :
  forall c (oc : OperationContext) (fc : FieldContext),
    operationAttributes (WithDataDog c) oc
    = operationAttributes c oc
      ++ [trace.StringAttribute "resource.name" (operationName oc)]
    /\ operationAttributes (WithRawQuery c) oc
       = operationAttributes c oc
         ++ [trace.StringAttribute "query" (RawQuery oc)]
    /\ fieldAttributes (WithDataDog c) fc = fieldAttributes c fc
    /\ fieldAttributes (WithRawQuery c) fc = fieldAttributes c fc
    /\ operationAttributes (WithDataDog (Tracer_config defaultTracer)) oc
       = [ trace.StringAttribute "server" "gqlgen";
           trace.StringAttribute "operation" (operationName oc);
           trace.StringAttribute "resource.name" (operationName oc) ].
Proof.
  intros c oc fc. repeat split.
  - exact (operationAttributes_callOption CallWithDataDog c oc).
  - exact (operationAttributes_callOption CallWithRawQuery c oc).
  - etransitivity;
      [exact (fieldAttributes_callOption CallWithDataDog c fc)|].
    apply app_nil_r.
  - etransitivity;
      [exact (fieldAttributes_callOption CallWithRawQuery c fc)|].
    apply app_nil_r.
Qed.

(** X8: passing two lists of producers in one call of [WithFieldAttributes]
    (resp. [WithOperationAttributes]) gives the configuration that two
    calls, one per list, give; a call with no producer leaves the
    configuration as it is. *)
Theorem variadic_options_split :
  forall c,
    (forall l1 l2,
        WithFieldAttributes (l1 ++ l2) c
        = WithFieldAttributes l2 (WithFieldAttributes l1 c))
    /\ WithFieldAttributes [] c = c
    /\ (forall l1 l2,
          WithOperationAttributes (l1 ++ l2) c
          = WithOperationAttributes l2 (WithOperationAttributes l1 c))
    /\ WithOperationAttributes [] c = c.
Proof.
  intros c. repeat split.
  - intros l1 l2. unfold WithFieldAttributes; simpl.
    rewrite app_assoc. reflexivity.
  - unfold WithFieldAttributes. rewrite app_nil_r. apply config_eta.
  - intros l1 l2. unfold WithOperationAttributes; simpl.
    rewrite app_assoc. reflexivity.
  - unfold WithOperationAttributes. rewrite app_nil_r. apply config_eta.
Qed.

(** X9: two option calls that assign different fields of the configuration
    (field producers, operation producers, flag) can be applied in either
    order: the resulting configurations are equal. *)
Theorem options_on_distinct_components_commute :
  forall k1 k2 c,
    Component_eqb (component k1) (component k2) = false ->
    callOption k1 (callOption k2 c) = callOption k2 (callOption k1 c).
Proof.
  intros k1 k2 c H.
  destruct k1, k2; simpl in H; try discriminate H; reflexivity.
Qed.

(** ** Tracers built from the package's own producers *)

Lemma forallb_added_fields (k : OptionCall) (fc : FieldContext) :
  isBuiltinCall k = true ->
  forallb (stringAttributeIn ["server"; "field"; "args"])
    (concat (map (fun p => p fc) (addedFieldAttributers k))) = true.
Proof.
  destruct k; simpl; intros H; try discriminate H; try reflexivity.
  unfold argsAttributer. destruct (json_Marshal (Args fc)); reflexivity.
Qed.

Lemma forallb_added_operations (k : OptionCall) (oc : OperationContext) :
  isBuiltinCall k = true ->
  forallb
    (stringAttributeIn
       ["server"; "operation"; "resource.name"; "query"; "variables"])
    (concat (map (fun p => p oc) (addedOperationAttributers k))) = true.
Proof.
  destruct k; simpl; intros H; try discriminate H; try reflexivity.
  unfold variablesAttributer. destruct (json_Marshal (Variables oc));
    reflexivity.
Qed.

(** X10: a tracer built from the default by calls that register none of the
    caller's producers ([WithDataDog], [WithRawQuery], [WithVariables],
    [WithArgs], [OnlyMethods]) emits string attributes only, with keys among
    "server", "field" and "args" for a field and among "server",
    "operation", "resource.name", "query" and "variables" for an operation,
    whatever [json.Marshal] returns. *)
Theorem builtin_tracer_emits_known_string_attributes :
  forall calls (fc : FieldContext) (oc : OperationContext),
    forallb isBuiltinCall calls = true ->
    forallb (stringAttributeIn ["server"; "field"; "args"])
      (fieldAttributes
         (applyOptions (map callOption calls) (Tracer_config defaultTracer))
         fc) = true
    /\ forallb
         (stringAttributeIn
            ["server"; "operation"; "resource.name"; "query"; "variables"])
         (operationAttributes
            (applyOptions (map callOption calls) (Tracer_config defaultTracer))
            oc) = true.
Proof.
  intros calls fc oc.
  generalize (Tracer_config defaultTracer),
    (eq_refl : forallb (stringAttributeIn ["server"; "field"; "args"])
                 (fieldAttributes (Tracer_config defaultTracer) fc) = true),
    (eq_refl : forallb
                 (stringAttributeIn
                    ["server"; "operation"; "resource.name"; "query";
                     "variables"])
                 (operationAttributes (Tracer_config defaultTracer) oc) = true).
  induction calls as [|k calls IH]; intros c Hf Ho Hb; cbn [map].
  - split; assumption.
  - cbn [forallb] in Hb. apply andb_prop in Hb. destruct Hb as [Hk Hb].
    rewrite applyOptions_cons. apply IH; [| |exact Hb].
    + rewrite fieldAttributes_callOption, forallb_app, Hf.
      apply forallb_added_fields. exact Hk.
    + rewrite operationAttributes_callOption, forallb_app, Ho.
      apply forallb_added_operations. exact Hk.
Qed.

(** X11: options are not idempotent: [WithDataDog] applied n times makes
    the operation composer emit "resource.name" n times, and [WithArgs]
    applied n times makes the field composer emit n more attributes. *)
Theorem repeated_options_repeat_attributes :
  forall n c (oc : OperationContext) (fc : FieldContext),
    operationAttributes
      (applyOptions (map callOption (repeat CallWithDataDog n)) c) oc
    = operationAttributes c oc
      ++ repeat (trace.StringAttribute "resource.name" (operationName oc)) n
    /\ length
         (fieldAttributes
            (applyOptions (map callOption (repeat CallWithArgs n)) c) fc)
       = length (fieldAttributes c fc) + n.
Proof.
  intros n c oc fc. split.
  - rewrite operationAttributes_applyOptions. f_equal.
    induction n as [|n IH]; [reflexivity|].
    cbn. f_equal. exact IH.
  - rewrite fieldAttributes_applyOptions, length_app. f_equal.
    induction n as [|n IH]; [reflexivity|].
    cbn [repeat map concat]. cbn [addedFieldAttributers app].
    cbn [map concat]. rewrite length_app, IH.
    unfold argsAttributer. destruct (json_Marshal (Args fc)); reflexivity.
Qed.

End Contexts.

(** * The properties at concrete inputs *)

Lemma Marshal_chans_nil_on_error : nil_on_error json.Chan json.Marshal_chans.
Proof.
  intros [m|] b e; simpl.
  - destruct (decide (m = ∅)); intros H; inversion H; reflexivity.
  - intros H; inversion H.
Qed.

(** A variable bound to a channel cannot be encoded: the attribute is still
    there, with an empty value. *)
Lemma serialization_producers_never_fail_witness :
  variablesAttributer json.Chan json.Marshal_chans
    (mkOperationContext json.Chan "query { me }"
       (Some {[ "ch" := json.chan ]}) "" None)
  = [trace.StringAttribute "variables" ""].
Proof.
  destruct (serialization_producers_never_fail json.Chan json.Marshal_chans
              Marshal_chans_nil_on_error) as [Hv _].
  rewrite Hv. vm_compute. reflexivity.
Defined.

(** A tracer with the DataDog and raw-query options, on an anonymous query:
    the attributes come in the order the producers were registered, and the
    kind stands for the missing name. *)
Example operationAttributes_datadog_rawquery :
  operationAttributes json.Chan
    (Tracer_config json.Chan
       (New json.Chan
          [ WithDataDog json.Chan; WithRawQuery json.Chan;
            WithOperationAttributes json.Chan
              [OperationAttribute json.Chan "server" "gqlgen"] ]))
    (mkOperationContext json.Chan "{ me }" None ""
       (Some (ast.OperationDefinition.mk ast.Query "")))
  = [ trace.StringAttribute "server" "gqlgen";
      trace.StringAttribute "operation" "query";
      trace.StringAttribute "resource.name" "query";
      trace.StringAttribute "query" "{ me }";
      trace.StringAttribute "server" "gqlgen" ].
Proof. reflexivity. Qed.

(** Arguments that encode, and arguments that do not. *)
Example fieldAttributes_args :
  fieldAttributes json.Chan
    (Tracer_config json.Chan
       (New json.Chan [WithArgs json.Chan json.Marshal_chans]))
    (mkFieldContext json.Chan (ast.Field.mk "" "user") (Some ∅))
  = [ trace.StringAttribute "server" "gqlgen";
      trace.StringAttribute "field" "user";
      trace.StringAttribute "args" "{}" ]
  /\ fieldAttributes json.Chan
       (Tracer_config json.Chan
          (New json.Chan [WithArgs json.Chan json.Marshal_chans]))
       (mkFieldContext json.Chan (ast.Field.mk "" "user")
          (Some {[ "ch" := json.chan ]}))
     = [ trace.StringAttribute "server" "gqlgen";
         trace.StringAttribute "field" "user";
         trace.StringAttribute "args" "" ].
Proof. split; vm_compute; reflexivity. Qed.

(** The flag after three toggles and an unrelated option. *)
Example onlyMethods_toggled_thrice :
  onlyMethods json.Chan
    (Tracer_config json.Chan
       (New json.Chan
          [ OnlyMethods json.Chan false; OnlyMethods json.Chan true;
            OnlyMethods json.Chan false; WithDataDog json.Chan ]))
  = false.
Proof. reflexivity. Qed.

(** [WithArgs] and [OnlyMethods false] on the default configuration, in both
    orders. *)
Lemma options_on_distinct_components_commute_witness :
  callOption json.Chan json.Marshal_chans (CallWithArgs json.Chan)
    (callOption json.Chan json.Marshal_chans (CallOnlyMethods json.Chan false)
       (Tracer_config json.Chan (defaultTracer json.Chan)))
  = callOption json.Chan json.Marshal_chans (CallOnlyMethods json.Chan false)
      (callOption json.Chan json.Marshal_chans (CallWithArgs json.Chan)
         (Tracer_config json.Chan (defaultTracer json.Chan))).
Proof.
  apply options_on_distinct_components_commute. reflexivity.
Defined.

(** The default tracer with arguments, DataDog names and every field traced,
    on a field whose arguments hold a channel. *)
Lemma builtin_tracer_emits_known_string_attributes_witness :
  forallb (stringAttributeIn ["server"; "field"; "args"])
    (fieldAttributes json.Chan
       (applyOptions json.Chan
          (map (callOption json.Chan json.Marshal_chans)
             [ CallWithArgs json.Chan; CallWithDataDog json.Chan;
               CallOnlyMethods json.Chan false ])
          (Tracer_config json.Chan (defaultTracer json.Chan)))
       (mkFieldContext json.Chan (ast.Field.mk "" "user")
          (Some {[ "ch" := json.chan ]}))) = true
  /\ forallb
       (stringAttributeIn
          ["server"; "operation"; "resource.name"; "query"; "variables"])
       (operationAttributes json.Chan
          (applyOptions json.Chan
             (map (callOption json.Chan json.Marshal_chans)
                [ CallWithArgs json.Chan; CallWithDataDog json.Chan;
                  CallOnlyMethods json.Chan false ])
             (Tracer_config json.Chan (defaultTracer json.Chan)))
          (mkOperationContext json.Chan "{ user }" None "" None)) = true.
Proof.
  apply builtin_tracer_emits_known_string_attributes. reflexivity.
Defined.

(** ** Repeated calls with a producer that has effects *)


